(** * utf8dok: the CI/CD pipeline generator (architecture/infrastructure/ci-cd.py)

    A shallow embedding of [CIConfig], [CIConfig.to_github_actions],
    [generate_workflow] and [main], and the properties of the rendered
    workflow document and of the command dispatcher. *)

From Stdlib Require Import String Ascii List ZArith Bool Lia.
From stdpp Require Import gmap strings list.

Local Open Scope string_scope.
Local Open Scope list_scope.

(** ** Documents: the nested dict / list / str values the renderer builds *)

Module Doc.

(** A Python value as [to_github_actions] builds them: a [str], a [list]
    or a [dict] with string keys.  A dict keeps its insertion order, so it
    is an association list in the order the literal is written. *)
Unset Elimination Schemes.
Inductive value : Type :=
| VStr (s : string)
| VList (xs : list value)
| VDict (kvs : list (string * value)).
Set Elimination Schemes.

(** [d.get(k)] on the entries of a dict. *)
Fixpoint dict_get (k : string) (kvs : list (string * value)) : option value :=
  match kvs with
  | [] => None
  | (k', v) :: rest => if String.eqb k k' then Some v else dict_get k rest
  end.

(** [v[k]] for a value that may or may not be a dict. *)
Definition get (k : string) (v : value) : option value :=
  match v with
  | VDict kvs => dict_get k kvs
  | _ => None
  end.

(** [v[k1][k2]...[kn]]. *)
Fixpoint get_path (ks : list string) (v : value) : option value :=
  match ks with
  | [] => Some v
  | k :: ks' =>
      match get k v with
      | Some v' => get_path ks' v'
      | None => None
      end
  end.

(** [list(v.keys())]. *)
Definition keys (v : value) : list string :=
  match v with
  | VDict kvs => map fst kvs
  | _ => []
  end.

(** [len(v)] of a list or a dict. *)
Definition len (v : value) : option nat :=
  match v with
  | VStr s => Some (String.length s)
  | VList xs => Some (length xs)
  | VDict kvs => Some (length kvs)
  end.

(** The items of a list value. *)
Definition items (v : value) : option (list value) :=
  match v with
  | VList xs => Some xs
  | _ => None
  end.

Definition mem_string (k : string) (ks : list string) : bool :=
  existsb (String.eqb k) ks.

Fixpoint nodup_strings (ks : list string) : bool :=
  match ks with
  | [] => true
  | k :: rest => negb (mem_string k rest) && nodup_strings rest
  end.

(** A value is a well-formed Python object when no dict in it has a key
    twice (a dict literal with a repeated key would keep the last one). *)
Fixpoint wf (v : value) : bool :=
  match v with
  | VStr _ => true
  | VList xs => forallb wf xs
  | VDict kvs =>
      nodup_strings (map fst kvs) && forallb (fun kv => wf (snd kv)) kvs
  end.

(** Python's [==] on these values: strings by content, lists elementwise
    in order, dicts by key set and value per key (insertion order is not
    compared). *)
Fixpoint py_eq (a b : value) {struct a} : bool :=
  match a, b with
  | VStr s, VStr t => String.eqb s t
  | VList xs, VList ys =>
      (fix all2 (xs : list value) (ys : list value) {struct xs} : bool :=
         match xs, ys with
         | [], [] => true
         | x :: xs', y :: ys' => py_eq x y && all2 xs' ys'
         | _, _ => false
         end) xs ys
  | VDict d1, VDict d2 =>
      Nat.eqb (length d1) (length d2)
      && forallb (fun kv =>
                    match dict_get (fst kv) d2 with
                    | Some v' => py_eq (snd kv) v'
                    | None => false
                    end) d1
  | _, _ => false
  end.

(** Whether the key [k] occurs in any dict anywhere inside [v]. *)
Fixpoint mentions_key (k : string) (v : value) : bool :=
  match v with
  | VStr _ => false
  | VList xs => existsb (mentions_key k) xs
  | VDict kvs =>
      existsb (fun kv => String.eqb k (fst kv) || mentions_key k (snd kv)) kvs
  end.

End Doc.
Import Doc.

(** ** The configuration model and the renderer *)

(** [@dataclass class CIConfig]; [platforms] is a tuple of strings. *)
Record CIConfig : Type := mkCIConfig {
  rust_version : string;
  rust_msrv : string;
  platforms : list string
}.

(** [CIConfig()]: every field at its default. *)
Definition CIConfig_default : CIConfig :=
  {| rust_version := "stable";
     rust_msrv := "1.70.0";
     platforms := ["ubuntu-latest"; "macos-latest"; "windows-latest"] |}.

(** [CIConfig.to_github_actions]. *)
Definition to_github_actions (self : CIConfig) : value :=
  VDict [
    ("name", VStr "CI");
    ("on", VDict [
      ("push", VDict [("branches", VList [VStr "main"])]);
      ("pull_request", VDict [("branches", VList [VStr "main"])])
    ]);
    ("env", VDict [
      ("CARGO_TERM_COLOR", VStr "always")
    ]);
    ("jobs", VDict [
      ("test", VDict [
        ("name", VStr "Test");
        ("runs-on", VStr "${{ matrix.os }}");
        ("strategy", VDict [
          ("matrix", VDict [
            ("os", VList (map VStr (platforms self)));
            ("rust", VList [VStr (rust_version self); VStr (rust_msrv self)])
          ])
        ]);
        ("steps", VList [
          VDict [("uses", VStr "actions/checkout@v4")];
          VDict [
            ("name", VStr "Install Rust");
            ("uses", VStr "dtolnay/rust-toolchain@master");
            ("with", VDict [("toolchain", VStr "${{ matrix.rust }}")])
          ];
          VDict [("name", VStr "Build"); ("run", VStr "cargo build --workspace")];
          VDict [("name", VStr "Test"); ("run", VStr "cargo test --workspace")]
        ])
      ]);
      ("lint", VDict [
        ("name", VStr "Lint");
        ("runs-on", VStr "ubuntu-latest");
        ("steps", VList [
          VDict [("uses", VStr "actions/checkout@v4")];
          VDict [
            ("name", VStr "Install Rust");
            ("uses", VStr "dtolnay/rust-toolchain@stable");
            ("with", VDict [("components", VStr "rustfmt, clippy")])
          ];
          VDict [("name", VStr "Format"); ("run", VStr "cargo fmt --all -- --check")];
          VDict [("name", VStr "Clippy");
                 ("run", VStr "cargo clippy --workspace -- -D warnings")]
        ])
      ]);
      ("wasm", VDict [
        ("name", VStr "WASM Build");
        ("runs-on", VStr "ubuntu-latest");
        ("steps", VList [
          VDict [("uses", VStr "actions/checkout@v4")];
          VDict [
            ("name", VStr "Install Rust");
            ("uses", VStr "dtolnay/rust-toolchain@stable");
            ("with", VDict [("targets", VStr "wasm32-unknown-unknown")])
          ];
          VDict [
            ("name", VStr "Install wasm-pack");
            ("run", VStr "cargo install wasm-pack")
          ];
          VDict [
            ("name", VStr "Build WASM");
            ("run", VStr "wasm-pack build crates/utf8dok-wasm --target web")
          ]
        ])
      ])
    ])
  ].

(** ** The operating-system side: paths, the directory tree, standard output *)

Module Os.

(** A [pathlib.Path] relative to the working directory, as its [parts].
    [main] builds only the relative path [.github/workflows/ci.yml];
    anchored (absolute) paths are not modelled. *)
Abbreviation Path := (list string).

Fixpoint split_on (sep : ascii) (s : string) : list string :=
  match s with
  | EmptyString => [EmptyString]
  | String c s' =>
      if Ascii.eqb c sep then EmptyString :: split_on sep s'
      else match split_on sep s' with
           | [] => [String c EmptyString]
           | h :: t => String c h :: t
           end
  end.

(** [Path(s)]: split at the slashes, dropping empty and [.] components. *)
Definition Path_of (s : string) : Path :=
  List.filter (fun part => negb (String.eqb part "") && negb (String.eqb part "."))
              (split_on "/"%char s).

(** [str(p)]. *)
Definition path_str (p : Path) : string :=
  match p with
  | [] => "."
  | _ => String.concat "/" p
  end.

(** [p.parent]; the parent of the working directory is itself. *)
Definition parent (p : Path) : Path := removelast p.

Inductive node : Type :=
| Dir
| File (content : string).

(** The directory tree below the working directory.  The working
    directory itself, [[]], always exists and is a directory.  The tree
    holds plain directories and regular files under plain names; symbolic
    links, special files, permissions and limits on names are outside it,
    and so are the refusals an operating system bases on them. *)
Abbreviation tree_t := (gmap (list string) node).

Inductive OSError : Type :=
| FileExistsError
| FileNotFoundError
| NotADirectoryError.

Definition node_at (p : Path) (t : tree_t) : option node :=
  match p with
  | [] => Some Dir
  | _ => t !! p
  end.

Definition is_dir (p : Path) (t : tree_t) : bool :=
  match node_at p t with
  | Some Dir => true
  | _ => false
  end.

(** [os.mkdir(p)]: creates one directory, whose parent must exist. *)
Definition os_mkdir (p : Path) (t : tree_t) : OSError + tree_t :=
  match node_at p t with
  | Some _ => inl FileExistsError
  | None =>
      match node_at (parent p) t with
      | Some Dir => inr (<[p := Dir]> t)
      | Some (File _) => inl NotADirectoryError
      | None => inl FileNotFoundError
      end
  end.

(** [Path.mkdir(parents=False, exist_ok=exist_ok)]. *)
Definition mkdir_single (p : Path) (exist_ok : bool) (t : tree_t)
  : OSError + tree_t :=
  match os_mkdir p t with
  | inr t' => inr t'
  | inl FileNotFoundError => inl FileNotFoundError
  | inl e => if negb exist_ok || negb (is_dir p t) then inl e else inr t
  end.

(** [Path.mkdir(parents, exist_ok)] as pathlib writes it: try [os.mkdir];
    on [FileNotFoundError] create the parent with
    [mkdir(parents=True, exist_ok=True)] and retry without [parents]; on
    any other [OSError] succeed only if [exist_ok] and the path is a
    directory.  The recursion is on the parts read from the last one, so
    that the recursive call is on the parent. *)
Fixpoint mkdir_rev (rp : list string) (parents exist_ok : bool) (t : tree_t)
  {struct rp} : OSError + tree_t :=
  match os_mkdir (rev rp) t with
  | inr t' => inr t'
  | inl FileNotFoundError =>
      match rp with
      | [] => inl FileNotFoundError
      | _ :: rp' =>
          if negb parents then inl FileNotFoundError
          else match mkdir_rev rp' true true t with
               | inl e => inl e
               | inr t1 => mkdir_single (rev rp) exist_ok t1
               end
      end
  | inl e => if negb exist_ok || negb (is_dir (rev rp) t) then inl e else inr t
  end.

Definition Path_mkdir (p : Path) (parents exist_ok : bool) (t : tree_t)
  : OSError + tree_t :=
  mkdir_rev (rev p) parents exist_ok t.

(** What the process can observe and change: the text written to
    standard output so far, and the directory tree. *)
Record world : Type := mkWorld {
  stdout : string;
  tree : tree_t
}.

Definition empty_world : world := {| stdout := ""; tree := ∅ |}.

(** A Python call either returns or raises. *)
Inductive result (A : Type) : Type :=
| Returned (a : A)
| Raised (e : OSError).
Arguments Returned {A} a.
Arguments Raised {A} e.

Definition M (A : Type) : Type := world -> result A * world.

Definition ret {A} (a : A) : M A := fun w => (Returned a, w).

Definition bind {A B} (m : M A) (k : A -> M B) : M B :=
  fun w =>
    match m w with
    | (Returned a, w') => k a w'
    | (Raised e, w') => (Raised e, w')
    end.

Definition nl : string := String (ascii_of_nat 10) EmptyString.

(** [print(s)], on a standard output that accepts every text. *)
Definition print (s : string) : M unit :=
  fun w => (Returned tt, {| stdout := stdout w ++ s ++ nl; tree := tree w |}).

(** [p.mkdir(parents=..., exist_ok=...)] as a statement. *)
Definition mkdir (p : Path) (parents exist_ok : bool) : M unit :=
  fun w =>
    match Path_mkdir p parents exist_ok (tree w) with
    | inr t' => (Returned tt, {| stdout := stdout w; tree := t' |})
    | inl e => (Raised e, w)
    end.

End Os.
Import Os.

Declare Scope py_scope.
Delimit Scope py_scope with py.
Notation "m1 ;; m2" := (bind m1 (fun _ => m2))
  (at level 100, m2 at level 200, right associativity) : py_scope.
Local Open Scope py_scope.

(** ** The command surface *)

(** The module docstring, [__doc__]. *)
Definition module_doc : string :=
  String.concat nl [
    "";
    "utf8dok CI/CD Infrastructure as Code";
    "";
    "This script generates and manages CI/CD pipeline configurations.";
    "Currently supports GitHub Actions, with extensibility for other platforms.";
    "";
    "Usage:";
    "    python ci-cd.py generate    # Generate CI configuration";
    "    python ci-cd.py validate    # Validate existing configuration";
    ""
  ].

(** [generate_workflow]. *)
Definition generate_workflow (output_path : Path) : M unit :=
  let config := CIConfig_default in
  let workflow := to_github_actions config in
  mkdir (parent output_path) true true ;;
  print ("Generated CI configuration for: "
         ++ String.concat ", " (platforms config)) ;;
  print ("Rust versions: " ++ rust_version config
         ++ ", MSRV: " ++ rust_msrv config) ;;
  print ("Output would be written to: " ++ path_str output_path).

(** [main], with [sys.argv] as its argument. *)
Definition main (argv : list string) : M Z :=
  if Nat.ltb (length argv) 2 then
    print module_doc ;; ret 1%Z
  else
    let command := nth 1 argv "" in
    if String.eqb command "generate" then
      let output := Path_of ".github/workflows/ci.yml" in
      generate_workflow output ;; ret 0%Z
    else if String.eqb command "validate" then
      print "Validation not yet implemented" ;; ret 0%Z
    else
      print ("Unknown command: " ++ command) ;; ret 1%Z.

(** Substring test, for what a message contains. *)
Fixpoint contains (needle hay : string) : bool :=
  String.prefix needle hay
  || match hay with
     | EmptyString => false
     | String _ hay' => contains needle hay'
     end.

(** ** Reading the rendered document *)

(** The values of a list of [str], as strings. *)
Fixpoint strings_of (xs : list value) : option (list string) :=
  match xs with
  | [] => Some []
  | VStr s :: rest =>
      match strings_of rest with
      | Some ss => Some (s :: ss)
      | None => None
      end
  | _ :: _ => None
  end.

(** A dimension of the test job's matrix:
    [doc["jobs"]["test"]["strategy"]["matrix"][dim]]. *)
Definition test_matrix_dim (dim : string) (doc : value) : option (list value) :=
  match get_path ["jobs"; "test"; "strategy"; "matrix"; dim] doc with
  | Some v => items v
  | None => None
  end.

(** [doc["jobs"][job]]. *)
Definition job_of (job : string) (doc : value) : option value :=
  get_path ["jobs"; job] doc.

(** [doc["jobs"][job]["steps"]]. *)
Definition job_steps (job : string) (doc : value) : option (list value) :=
  match get_path ["jobs"; job; "steps"] doc with
  | Some v => items v
  | None => None
  end.

(** What a step does: the command it runs, or else the action it uses. *)
Definition step_action (step : value) : option string :=
  match get "run" step with
  | Some (VStr cmd) => Some cmd
  | _ =>
      match get "uses" step with
      | Some (VStr action) => Some action
      | _ => None
      end
  end.

(** An induction principle for [value] that reaches the values nested in
    lists and dicts. *)
Definition value_ind (P : value -> Prop)
  (fstr : forall s, P (VStr s))
  (flist : forall xs, Forall P xs -> P (VList xs))
  (fdict : forall kvs, Forall (fun kv => P (snd kv)) kvs -> P (VDict kvs))
  : forall v, P v :=
  fix go (v : value) : P v :=
    match v with
    | VStr s => fstr s
    | VList xs =>
        flist xs
          ((fix go_list (l : list value) : Forall P l :=
              match l with
              | [] => List.Forall_nil P
              | x :: l' => List.Forall_cons P x l' (go x) (go_list l')
              end) xs)
    | VDict kvs =>
        fdict kvs
          ((fix go_dict (l : list (string * value))
              : Forall (fun kv => P (snd kv)) l :=
              match l with
              | [] => List.Forall_nil (fun kv => P (snd kv))
              | kv :: l' =>
                  List.Forall_cons (fun kv => P (snd kv)) kv l'
                    (go (snd kv)) (go_dict l')
              end) kvs)
    end.

(** The step lists as the source writes them. *)
Definition test_steps : list value := [
  VDict [("uses", VStr "actions/checkout@v4")];
  VDict [("name", VStr "Install Rust");
         ("uses", VStr "dtolnay/rust-toolchain@master");
         ("with", VDict [("toolchain", VStr "${{ matrix.rust }}")])];
  VDict [("name", VStr "Build"); ("run", VStr "cargo build --workspace")];
  VDict [("name", VStr "Test"); ("run", VStr "cargo test --workspace")]
].

Definition lint_steps : list value := [
  VDict [("uses", VStr "actions/checkout@v4")];
  VDict [("name", VStr "Install Rust");
         ("uses", VStr "dtolnay/rust-toolchain@stable");
         ("with", VDict [("components", VStr "rustfmt, clippy")])];
  VDict [("name", VStr "Format"); ("run", VStr "cargo fmt --all -- --check")];
  VDict [("name", VStr "Clippy");
         ("run", VStr "cargo clippy --workspace -- -D warnings")]
].

Definition wasm_steps : list value := [
  VDict [("uses", VStr "actions/checkout@v4")];
  VDict [("name", VStr "Install Rust");
         ("uses", VStr "dtolnay/rust-toolchain@stable");
         ("with", VDict [("targets", VStr "wasm32-unknown-unknown")])];
  VDict [("name", VStr "Install wasm-pack"); ("run", VStr "cargo install wasm-pack")];
  VDict [("name", VStr "Build WASM");
         ("run", VStr "wasm-pack build crates/utf8dok-wasm --target web")]
].

(** [list(doc["jobs"].keys())]. *)
Definition job_names (doc : value) : option (list string) :=
  option_map keys (get "jobs" doc).

(** The trigger rules and the global environment as the source writes
    them. *)
Definition fixed_triggers : value :=
  VDict [
    ("push", VDict [("branches", VList [VStr "main"])]);
    ("pull_request", VDict [("branches", VList [VStr "main"])])
  ].

Definition fixed_env : value :=
  VDict [("CARGO_TERM_COLOR", VStr "always")].

(** [t'] is [t] with, at most, new directories at paths leading to [p]:
    every other path, and every regular file, is as it was. *)
Definition grows_along (p : Path) (t t' : tree_t) : Prop :=
  forall q : Path,
    t' !! q = t !! q
    \/ (t !! q = None /\ t' !! q = Some Dir /\ q `prefix_of` p).

(** The fixed workflow-file path of [main], and its parent directory. *)
Definition workflow_file : Path := Path_of ".github/workflows/ci.yml".
Definition workflow_dir : Path := parent workflow_file.

(** What [generate_workflow] prints for the default configuration and the
    fixed path. *)
Definition generate_summary : string :=
  "Generated CI configuration for: ubuntu-latest, macos-latest, windows-latest" ++ nl
  ++ "Rust versions: stable, MSRV: 1.70.0" ++ nl
  ++ "Output would be written to: .github/workflows/ci.yml" ++ nl.

(** The document has been persisted at [p]: a regular file is there. *)
Definition persisted_at (p : Path) (w : world) : Prop :=
  exists content : string, tree w !! p = Some (File content).

(** The configuration a document was rendered from, read back from the
    two dimensions of the test job's matrix. *)
Definition config_of_document (doc : value) : option CIConfig :=
  match test_matrix_dim "os" doc, test_matrix_dim "rust" doc with
  | Some os, Some [VStr rv; VStr msrv] =>
      match strings_of os with
      | Some ps => Some (mkCIConfig rv msrv ps)
      | None => None
      end
  | _, _ => None
  end.

(** [del d[k]] on the entries of a dict. *)
Definition dict_remove (k : string) (kvs : list (string * value))
  : list (string * value) :=
  List.filter (fun kv => negb (String.eqb k (fst kv))) kvs.

(** [del v[k1]...[kn]], doing nothing where the path leaves the dicts. *)
Fixpoint delete_path (ks : list string) (v : value) {struct ks} : value :=
  match ks with
  | [] => v
  | k :: ks' =>
      match v with
      | VDict kvs =>
          match ks' with
          | [] => VDict (dict_remove k kvs)
          | _ :: _ =>
              VDict (map (fun kv =>
                            if String.eqb k (fst kv)
                            then (fst kv, delete_path ks' (snd kv))
                            else kv) kvs)
          end
      | _ => v
      end
  end.

(** The rendered document without the test job's matrix: the part of the
    source literal that mentions no field of [self]. *)
Definition workflow_template : value :=
  VDict [
    ("name", VStr "CI");
    ("on", fixed_triggers);
    ("env", fixed_env);
    ("jobs", VDict [
      ("test", VDict [
        ("name", VStr "Test");
        ("runs-on", VStr "${{ matrix.os }}");
        ("strategy", VDict []);
        ("steps", VList test_steps)
      ]);
      ("lint", VDict [
        ("name", VStr "Lint");
        ("runs-on", VStr "ubuntu-latest");
        ("steps", VList lint_steps)
      ]);
      ("wasm", VDict [
        ("name", VStr "WASM Build");
        ("runs-on", VStr "ubuntu-latest");
        ("steps", VList wasm_steps)
      ])
    ])
  ].









(** The three lines [generate_workflow] prints for [output_path]. *)
Definition summary_for (output_path : Path) : string :=
  ("Generated CI configuration for: "
   ++ String.concat ", " (platforms CIConfig_default)) ++ nl
  ++ ("Rust versions: " ++ rust_version CIConfig_default
      ++ ", MSRV: " ++ rust_msrv CIConfig_default) ++ nl
  ++ ("Output would be written to: " ++ path_str output_path) ++ nl.

(** A path component that names a child: not empty, not [.], not [..],
    and without a separator.  The directory tree is keyed by such names;
    a [..] component would make two part lists name the same place. *)
Definition plain_name (x : string) : bool :=
  negb (String.eqb x "") && negb (String.eqb x ".")
  && negb (String.eqb x "..") && negb (contains "/" x).

(** ** Properties of documents *)

Section DocFacts.

Lemma mem_string_In k ks : mem_string k ks = true <-> In k ks.
Proof.
  unfold mem_string. rewrite existsb_exists. split.
  - intros [x [Hin Heq]]. apply String.eqb_eq in Heq. now subst.
  - intros Hin. exists k. split; [assumption | apply String.eqb_refl].
Qed.

Lemma nodup_strings_NoDup ks : nodup_strings ks = true <-> List.NoDup ks.
Proof.
  induction ks as [|k ks IH]; simpl.
  - split; [constructor | reflexivity].
  - rewrite andb_true_iff, negb_true_iff, IH. split.
    + intros [Hnot Hnd]. constructor; [|assumption].
      intros Hin. apply mem_string_In in Hin. congruence.
    + intros Hnd. inversion Hnd as [|? ? Hnot Hnd']; subst. split; [|assumption].
      destruct (mem_string k ks) eqn:E; [|reflexivity].
      apply mem_string_In in E. contradiction.
Qed.

(** In a dict without repeated keys, every entry is the one [dict_get]
    finds for its key. *)
Lemma dict_get_In k v kvs :
  nodup_strings (map fst kvs) = true -> In (k, v) kvs -> dict_get k kvs = Some v.
Proof.
  induction kvs as [|[k' v'] kvs IH]; simpl; [contradiction|].
  rewrite andb_true_iff, negb_true_iff. intros [Hnot Hnd] [Heq | Hin].
  - inversion Heq; subst. now rewrite String.eqb_refl.
  - destruct (String.eqb_spec k k') as [->|Hne]; [|now apply IH].
    exfalso.
    assert (Hmem : mem_string k' (map fst kvs) = true).
    { apply mem_string_In. change k' with (fst (k', v)). now apply in_map. }
    congruence.
Qed.

Lemma dict_get_Some_In k v kvs : dict_get k kvs = Some v -> In (k, v) kvs.
Proof.
  induction kvs as [|[k' v'] kvs IH]; simpl; [discriminate|].
  destruct (String.eqb_spec k k') as [->|Hne].
  - intros [= ->]. now left.
  - intros H. right. now apply IH.
Qed.

(** [==] is reflexive on well-formed values. *)
Lemma py_eq_refl v : wf v = true -> py_eq v v = true.
Proof.
  induction v as [s | xs IH | kvs IH] using value_ind; simpl.
  - intros _. apply String.eqb_refl.
  - induction IH as [|x xs Hx _ IHxs]; simpl; [reflexivity|].
    rewrite andb_true_iff. intros [Hwx Hwxs].
    now rewrite (Hx Hwx), (IHxs Hwxs).
  - rewrite andb_true_iff. intros [Hnd Hall].
    rewrite Nat.eqb_refl. simpl.
    apply forallb_forall. intros [k v] Hin. simpl.
    rewrite (dict_get_In k v kvs Hnd Hin).
    rewrite List.Forall_forall in IH. apply (IH (k, v) Hin).
    rewrite forallb_forall in Hall. apply (Hall (k, v) Hin).
Qed.

Lemma wf_map_VStr ss : forallb wf (map VStr ss) = true.
Proof. induction ss as [|s ss IH]; simpl; [reflexivity | exact IH]. Qed.

Lemma strings_of_map_VStr ss : strings_of (map VStr ss) = Some ss.
Proof. induction ss as [|s ss IH]; simpl; [reflexivity | now rewrite IH]. Qed.

Lemma strings_of_length xs ss : strings_of xs = Some ss -> length xs = length ss.
Proof.
  revert ss. induction xs as [|x xs IH]; simpl; intros ss.
  - now intros [= <-].
  - destruct x as [s| |]; try discriminate.
    destruct (strings_of xs) as [ss'|]; [|discriminate].
    intros [= <-]. simpl. f_equal. now apply IH.
Qed.

(** [strings_of] reads back exactly the list that [map VStr] wraps. *)
Lemma strings_of_inv xs ss : strings_of xs = Some ss -> xs = map VStr ss.
Proof.
  revert ss. induction xs as [|x xs IH]; simpl; intros ss.
  - now intros [= <-].
  - destruct x as [s| |]; try discriminate.
    destruct (strings_of xs) as [ss'|]; [|discriminate].
    intros [= <-]. simpl. f_equal. now apply IH.
Qed.

End DocFacts.

(** [==] does not look at the order of a dict's entries, and does look at
    the order of a list's. *)
Example py_eq_ignores_key_order :
  py_eq (VDict [("a", VStr "1"); ("b", VStr "2")])
        (VDict [("b", VStr "2"); ("a", VStr "1")]) = true
  /\ py_eq (VList [VStr "1"; VStr "2"]) (VList [VStr "2"; VStr "1"]) = false.
Proof. split; reflexivity. Qed.

(** ** Properties of the renderer *)

(** The rendered document is a well-formed Python object for every
    configuration: no dict in it repeats a key. *)
Lemma to_github_actions_wf (c : CIConfig) : wf (to_github_actions c) = true.
Proof.
  destruct c as [rv msrv ps]. unfold to_github_actions. simpl.
  now rewrite wf_map_VStr.
Qed.

(** C1. For every configuration the [rust] dimension of the test job's
    matrix has exactly two entries: the first is [rust_version], the
    second is [rust_msrv].  Nothing is deduplicated: when both fields hold
    the same string [v], the dimension is still the two entries [v], [v]. *)
Theorem test_matrix_rust_dimension :
  forall c : CIConfig,
    test_matrix_dim "rust" (to_github_actions c)
      = Some [VStr (rust_version c); VStr (rust_msrv c)]
    /\ (exists dims,
          test_matrix_dim "rust" (to_github_actions c) = Some dims
          /\ length dims = 2
          /\ nth_error dims 0 = Some (VStr (rust_version c))
          /\ nth_error dims 1 = Some (VStr (rust_msrv c)))
    /\ (forall (v : string) (ps : list string),
          test_matrix_dim "rust" (to_github_actions (mkCIConfig v v ps))
            = Some [VStr v; VStr v]).
Proof.
  intros [rv msrv ps]. split; [reflexivity|]. split.
  - exists [VStr rv; VStr msrv]. repeat split.
  - intros v ps'. reflexivity.
Qed.

(** C2. For every configuration the [os] dimension of the test job's
    matrix is the [platforms] sequence itself, entry by entry in the same
    order and of the same length; with no platforms at all the renderer
    still returns a well-formed document, whose [os] dimension is the empty
    list. *)
Theorem test_matrix_os_dimension :
  forall c : CIConfig,
    test_matrix_dim "os" (to_github_actions c) = Some (map VStr (platforms c))
    /\ (exists dims,
          test_matrix_dim "os" (to_github_actions c) = Some dims
          /\ strings_of dims = Some (platforms c)
          /\ length dims = length (platforms c)
          /\ (forall i, nth_error dims i = option_map VStr (nth_error (platforms c) i)))
    /\ wf (to_github_actions c) = true
    /\ (forall rv msrv : string,
          test_matrix_dim "os" (to_github_actions (mkCIConfig rv msrv [])) = Some []
          /\ wf (to_github_actions (mkCIConfig rv msrv [])) = true).
Proof.
  intros c. split; [now destruct c|]. split; [|split].
  - exists (map VStr (platforms c)). split; [now destruct c|].
    split; [apply strings_of_map_VStr|].
    split; [apply length_map|].
    intros i. apply nth_error_map.
  - apply to_github_actions_wf.
  - intros rv msrv. split; [reflexivity | apply to_github_actions_wf].
Qed.

(** C5. For every configuration each job's [steps] list is the sequence
    the source writes, in that order: checkout, install toolchain, build,
    test for the test job; checkout, install toolchain, format check, lint
    for the lint job; checkout, install toolchain, install wasm-pack, build
    for the wasm job.  The lists do not depend on the configuration. *)
Theorem job_steps_in_authored_order :
  forall c : CIConfig,
    job_names (to_github_actions c) = Some ["test"; "lint"; "wasm"]
    /\ (job_steps "test" (to_github_actions c) = Some test_steps
        /\ job_steps "lint" (to_github_actions c) = Some lint_steps
        /\ job_steps "wasm" (to_github_actions c) = Some wasm_steps)
    /\ (map step_action test_steps
          = [Some "actions/checkout@v4"; Some "dtolnay/rust-toolchain@master";
             Some "cargo build --workspace"; Some "cargo test --workspace"]
        /\ map step_action lint_steps
          = [Some "actions/checkout@v4"; Some "dtolnay/rust-toolchain@stable";
             Some "cargo fmt --all -- --check";
             Some "cargo clippy --workspace -- -D warnings"]
        /\ map step_action wasm_steps
          = [Some "actions/checkout@v4"; Some "dtolnay/rust-toolchain@stable";
             Some "cargo install wasm-pack";
             Some "wasm-pack build crates/utf8dok-wasm --target web"])
    /\ (forall (c' : CIConfig) (job : string),
          job_steps job (to_github_actions c') = job_steps job (to_github_actions c)).
Proof.
  intros [rv msrv ps]. split; [reflexivity|]. split; [|split].
  - repeat split.
  - repeat split.
  - intros [rv' msrv' ps'] job. unfold job_steps, to_github_actions. simpl.
    destruct (String.eqb job "test"); [reflexivity|].
    destruct (String.eqb job "lint"); [reflexivity|].
    destruct (String.eqb job "wasm"); reflexivity.
Qed.

(** The test job, for contrast, does carry a matrix under [strategy]. *)
Lemma test_job_is_matrixed (c : CIConfig) :
  exists test,
    job_of "test" (to_github_actions c) = Some test
    /\ mentions_key "matrix" test = true
    /\ keys test = ["name"; "runs-on"; "strategy"; "steps"].
Proof. destruct c as [rv msrv ps]. eexists. repeat split. Qed.

(** C6. For every configuration the lint job and the wasm job have exactly
    the keys [name], [runs-on] and [steps]: neither has a [strategy] or a
    [matrix] key, at the top of the job or anywhere inside it. *)
Theorem lint_and_wasm_not_matrixed :
  forall c : CIConfig,
    exists lint wasm,
      job_of "lint" (to_github_actions c) = Some lint
      /\ job_of "wasm" (to_github_actions c) = Some wasm
      /\ keys lint = ["name"; "runs-on"; "steps"]
      /\ keys wasm = ["name"; "runs-on"; "steps"]
      /\ get "strategy" lint = None /\ get "matrix" lint = None
      /\ get "strategy" wasm = None /\ get "matrix" wasm = None
      /\ mentions_key "matrix" lint = false
      /\ mentions_key "strategy" lint = false
      /\ mentions_key "matrix" wasm = false
      /\ mentions_key "strategy" wasm = false.
Proof.
  intros [rv msrv ps]. do 2 eexists.
  split; [reflexivity|]. split; [reflexivity|]. repeat split.
Qed.

(** C7. Rendering the default configuration gives a document whose [jobs]
    mapping has exactly the keys [test], [lint], [wasm], and whose test
    matrix has three [os] entries and two [rust] entries. *)
Theorem default_render_shape :
  rust_version CIConfig_default = "stable"
  /\ rust_msrv CIConfig_default = "1.70.0"
  /\ platforms CIConfig_default = ["ubuntu-latest"; "macos-latest"; "windows-latest"]
  /\ job_names (to_github_actions CIConfig_default) = Some ["test"; "lint"; "wasm"]
  /\ option_map (@length value) (test_matrix_dim "os" (to_github_actions CIConfig_default))
       = Some 3
  /\ option_map (@length value) (test_matrix_dim "rust" (to_github_actions CIConfig_default))
       = Some 2
  /\ test_matrix_dim "os" (to_github_actions CIConfig_default)
       = Some [VStr "ubuntu-latest"; VStr "macos-latest"; VStr "windows-latest"]
  /\ test_matrix_dim "rust" (to_github_actions CIConfig_default)
       = Some [VStr "stable"; VStr "1.70.0"].
Proof. repeat split. Qed.

(** C8. For every configuration the [on] entry is the fixed pair of
    triggers, push to [main] and pull request against [main], and the
    [env] entry has the single variable [CARGO_TERM_COLOR]; neither
    depends on the configuration. *)
Theorem triggers_and_env_fixed :
  forall c : CIConfig,
    get "on" (to_github_actions c) = Some fixed_triggers
    /\ get "env" (to_github_actions c) = Some fixed_env
    /\ keys fixed_triggers = ["push"; "pull_request"]
    /\ get_path ["push"; "branches"] fixed_triggers = Some (VList [VStr "main"])
    /\ get_path ["pull_request"; "branches"] fixed_triggers = Some (VList [VStr "main"])
    /\ len fixed_env = Some 1
    /\ get "CARGO_TERM_COLOR" fixed_env = Some (VStr "always")
    /\ (forall c' : CIConfig,
          get "on" (to_github_actions c') = get "on" (to_github_actions c)
          /\ get "env" (to_github_actions c') = get "env" (to_github_actions c)).
Proof.
  intros [rv msrv ps]. repeat split.
  all: destruct c' as [rv' msrv' ps']; reflexivity.
Qed.

(** Documents of configurations that differ are told apart by [==]. *)
Example py_eq_tells_platforms_apart :
  py_eq (to_github_actions CIConfig_default)
        (to_github_actions (mkCIConfig "stable" "1.70.0" ["ubuntu-latest"])) = false.
Proof. reflexivity. Qed.

(** C9. Two configurations with the same [rust_version], [rust_msrv] and
    [platforms] render to the same document: the two results are the same
    value, and Python's [==] holds between them. *)
Theorem render_deterministic :
  forall c1 c2 : CIConfig,
    rust_version c1 = rust_version c2 ->
    rust_msrv c1 = rust_msrv c2 ->
    platforms c1 = platforms c2 ->
    to_github_actions c1 = to_github_actions c2
    /\ py_eq (to_github_actions c1) (to_github_actions c2) = true.
Proof.
  intros [rv1 msrv1 ps1] [rv2 msrv2 ps2] Hrv Hmsrv Hps.
  cbn [rust_version rust_msrv platforms] in Hrv, Hmsrv, Hps. subst.
  split; [reflexivity|].
  apply py_eq_refl, to_github_actions_wf.
Qed.

Lemma render_deterministic_witness :
  to_github_actions CIConfig_default
    = to_github_actions
        (mkCIConfig "stable" "1.70.0"
           ["ubuntu-latest"; "macos-latest"; "windows-latest"])
  /\ py_eq (to_github_actions CIConfig_default)
       (to_github_actions
          (mkCIConfig "stable" "1.70.0"
             ["ubuntu-latest"; "macos-latest"; "windows-latest"])) = true.
Proof.
  apply (render_deterministic CIConfig_default
           (mkCIConfig "stable" "1.70.0"
              ["ubuntu-latest"; "macos-latest"; "windows-latest"]));
    reflexivity.
Defined.

(** ** Properties of directory creation *)

Section MkdirFacts.

Implicit Types (p q : Path) (t : tree_t).

Lemma node_at_None p t : node_at p t = None -> p <> [] /\ t !! p = None.
Proof. destruct p; simpl; [discriminate | intros H; split; [discriminate | exact H]]. Qed.

Lemma node_at_cons x p t : node_at (x :: p) t = t !! (x :: p).
Proof. reflexivity. Qed.

Lemma parent_rev_cons x (rp : list string) : parent (rev (x :: rp)) = rev rp.
Proof. unfold parent. simpl. apply removelast_last. Qed.

Lemma grows_along_refl p t : grows_along p t t.
Proof. intros q. now left. Qed.

Lemma grows_along_trans p t1 t2 t3 :
  grows_along p t1 t2 -> grows_along p t2 t3 -> grows_along p t1 t3.
Proof.
  intros H12 H23 q.
  destruct (H23 q) as [E23 | (N2 & D3 & Hpre)].
  - rewrite E23. apply H12.
  - destruct (H12 q) as [E12 | (N1 & D2 & _)].
    + right. rewrite <- E12. auto.
    + congruence.
Qed.

Lemma grows_along_mono p p' t t' :
  p `prefix_of` p' -> grows_along p t t' -> grows_along p' t t'.
Proof.
  intros Hpp H q. destruct (H q) as [E | (N & D & Hpre)]; [now left|].
  right. repeat split; try assumption. now transitivity p.
Qed.

Lemma grows_along_insert p t :
  t !! p = None -> grows_along p t (<[p := Dir]> t).
Proof.
  intros Hnone q. destruct (decide (p = q)) as [<- | Hne].
  - right. rewrite lookup_insert_eq. auto.
  - left. now rewrite lookup_insert_ne.
Qed.

(** Growth leaves every regular file as it was. *)
Lemma grows_along_files p t t' :
  grows_along p t t' ->
  forall q content, t' !! q = Some (File content) <-> t !! q = Some (File content).
Proof.
  intros H q content. destruct (H q) as [E | (N & D & _)].
  - now rewrite E.
  - rewrite N, D. split; discriminate.
Qed.

Lemma os_mkdir_inr p t t' :
  os_mkdir p t = inr t' ->
  p <> [] /\ t !! p = None /\ is_dir (parent p) t = true /\ t' = <[p := Dir]> t.
Proof.
  unfold os_mkdir, is_dir. destruct (node_at p t) as [n|] eqn:Ep; [discriminate|].
  apply node_at_None in Ep as [Hne Hnone].
  destruct (node_at (parent p) t) as [[|c]|]; try discriminate.
  intros [= <-]. auto.
Qed.

Lemma is_dir_insert p t : p <> [] -> is_dir p (<[p := Dir]> t) = true.
Proof.
  intros Hne. unfold is_dir. destruct p as [|x p]; [contradiction|].
  now rewrite node_at_cons, lookup_insert_eq.
Qed.

Lemma mkdir_single_inr p exist_ok t t' :
  mkdir_single p exist_ok t = inr t' ->
  grows_along p t t' /\ is_dir p t' = true.
Proof.
  unfold mkdir_single. destruct (os_mkdir p t) as [e | t1] eqn:Eos.
  - destruct e; [|discriminate|].
    all: destruct (negb exist_ok || negb (is_dir p t)) eqn:Eg; [discriminate|].
    all: intros [= <-]; apply orb_false_elim in Eg as [_ Hd].
    all: apply negb_false_iff in Hd; split; [apply grows_along_refl | exact Hd].
  - intros [= <-]. apply os_mkdir_inr in Eos as (Hne & Hnone & _ & ->).
    split; [now apply grows_along_insert | now apply is_dir_insert].
Qed.

(** A successful [mkdir] only adds directories on the way to the path, and
    leaves the path a directory. *)
Lemma mkdir_rev_inr (rp : list string) :
  forall parents exist_ok t t',
    mkdir_rev rp parents exist_ok t = inr t' ->
    grows_along (rev rp) t t' /\ is_dir (rev rp) t' = true.
Proof.
  induction rp as [|x rp IH]; intros parents exist_ok t t'.
  - cbn [mkdir_rev rev]. unfold os_mkdir. cbn [node_at].
    destruct (negb exist_ok || negb (is_dir [] t)); [discriminate|].
    intros [= <-]. split; [apply grows_along_refl | reflexivity].
  - cbn [mkdir_rev]. destruct (os_mkdir (rev (x :: rp)) t) as [e | t1] eqn:Eos.
    + destruct e.
      * destruct (negb exist_ok || negb (is_dir (rev (x :: rp)) t)) eqn:Eg; [discriminate|].
        intros [= <-]. apply orb_false_elim in Eg as [_ Hd].
        apply negb_false_iff in Hd. split; [apply grows_along_refl | exact Hd].
      * destruct (negb parents); [discriminate|].
        destruct (mkdir_rev rp true true t) as [e1 | t1] eqn:Erec; [discriminate|].
        intros Hsingle. apply IH in Erec as [Hg1 _].
        apply mkdir_single_inr in Hsingle as [Hg2 Hd]. split; [|exact Hd].
        apply grows_along_trans with t1; [|exact Hg2].
        apply grows_along_mono with (rev rp); [|exact Hg1].
        simpl. now apply prefix_app_r.
      * destruct (negb exist_ok || negb (is_dir (rev (x :: rp)) t)) eqn:Eg; [discriminate|].
        intros [= <-]. apply orb_false_elim in Eg as [_ Hd].
        apply negb_false_iff in Hd. split; [apply grows_along_refl | exact Hd].
    + intros [= <-]. apply os_mkdir_inr in Eos as (Hne & Hnone & _ & ->).
      split; [now apply grows_along_insert | now apply is_dir_insert].
Qed.

Lemma Path_mkdir_inr p parents exist_ok t t' :
  Path_mkdir p parents exist_ok t = inr t' ->
  grows_along p t t' /\ is_dir p t' = true.
Proof.
  unfold Path_mkdir. intros H. apply mkdir_rev_inr in H.
  now rewrite rev_involutive in H.
Qed.

(** Once the parent has been created, creating the path itself cannot
    fail: a [mkdir] that raises has changed nothing. *)
Lemma mkdir_single_after_parent x (rp : list string) exist_ok t t1 :
  node_at (rev (x :: rp)) t = None ->
  grows_along (rev rp) t t1 ->
  is_dir (rev rp) t1 = true ->
  mkdir_single (rev (x :: rp)) exist_ok t1 = inr (<[rev (x :: rp) := Dir]> t1).
Proof.
  intros Hnone Hg Hd. apply node_at_None in Hnone as [Hne Hnone].
  assert (Hnone1 : node_at (rev (x :: rp)) t1 = None).
  { destruct (rev (x :: rp)) as [|y p] eqn:Ep; [contradiction|].
    rewrite node_at_cons.
    destruct (Hg (y :: p)) as [E | (_ & _ & Hpre)]; [exact (eq_trans E Hnone)|].
    apply prefix_length in Hpre. apply (f_equal (@length string)) in Ep.
    rewrite length_rev in Ep, Hpre. simpl in Ep, Hpre. lia. }
  unfold mkdir_single, os_mkdir. rewrite Hnone1, parent_rev_cons.
  unfold is_dir in Hd. destruct (node_at (rev rp) t1) as [[|c]|]; try discriminate.
  reflexivity.
Qed.

(** [mkdir(parents=True, exist_ok=True)] succeeds whenever no regular file
    stands at the path or at one of its ancestors. *)
Lemma mkdir_rev_succeeds (rp : list string) :
  forall t,
    (forall q content, q `prefix_of` rev rp -> node_at q t <> Some (File content)) ->
    exists t', mkdir_rev rp true true t = inr t'.
Proof.
  induction rp as [|x rp IH]; intros t Hfree.
  - exists t. reflexivity.
  - assert (Hpre : rev rp `prefix_of` rev (x :: rp)).
    { simpl. now apply prefix_app_r. }
    cbn [mkdir_rev]. unfold os_mkdir at 1.
    destruct (node_at (rev (x :: rp)) t) as [[|c]|] eqn:Ep.
    + unfold is_dir. rewrite Ep. simpl. now exists t.
    + exfalso. now apply (Hfree (rev (x :: rp)) c).
    + rewrite parent_rev_cons.
      destruct (node_at (rev rp) t) as [[|c]|] eqn:Epar.
      * eexists. reflexivity.
      * exfalso. now apply (Hfree (rev rp) c).
      * cbn [negb].
        destruct (IH t) as [t1 Ht1].
        { intros q c Hq. apply Hfree. now transitivity (rev rp). }
        rewrite Ht1. apply mkdir_rev_inr in Ht1 as [Hg Hd].
        rewrite (mkdir_single_after_parent x rp true t t1 Ep Hg Hd).
        eexists. reflexivity.
Qed.

Lemma Path_mkdir_succeeds p t :
  (forall q content, q `prefix_of` p -> node_at q t <> Some (File content)) ->
  exists t', Path_mkdir p true true t = inr t'.
Proof.
  intros Hfree. unfold Path_mkdir. apply mkdir_rev_succeeds.
  now rewrite rev_involutive.
Qed.

End MkdirFacts.

(** ** Properties of the command surface *)

Lemma string_app_assoc (a b c : string) : ((a ++ b) ++ c = a ++ (b ++ c))%string.
Proof.
  induction a as [|ch a IH]; [reflexivity|].
  change (String ch ((a ++ b) ++ c) = String ch (a ++ (b ++ c)))%string.
  now rewrite IH.
Qed.

Lemma workflow_path_parts :
  workflow_file = [".github"; "workflows"; "ci.yml"]
  /\ workflow_dir = [".github"; "workflows"]
  /\ path_str workflow_file = ".github/workflows/ci.yml".
Proof. repeat split. Qed.

(** What [main] does on the [generate] command, by the outcome of the
    directory creation. *)
Lemma main_generate (script : string) (rest : list string) (w : world) :
  main (script :: "generate" :: rest) w
  = match Path_mkdir workflow_dir true true (tree w) with
    | inr t' =>
        (Returned 0%Z, {| stdout := stdout w ++ generate_summary; tree := t' |})
    | inl e => (Raised e, w)
    end.
Proof.
  unfold main. cbn [length Nat.ltb Nat.leb nth].
  change (String.eqb "generate" "generate") with true. cbv iota zeta.
  unfold generate_workflow, bind, mkdir.
  change (parent (Path_of ".github/workflows/ci.yml")) with workflow_dir.
  destruct (Path_mkdir workflow_dir true true (tree w)) as [e | t']; [reflexivity|].
  unfold print, ret. cbn [stdout tree]. do 2 f_equal.
  rewrite !string_app_assoc. reflexivity.
Qed.

(** C3. The [generate] command is to hand the rendered document to a
    writer for the workflow-file path, as the docstring of
    [generate_workflow] ("Generate GitHub Actions workflow file") and its
    comment ("Convert to YAML-like format") also say.  The code does not:
    run from an empty working directory it returns 0, and afterwards no
    file stands at [.github/workflows/ci.yml]. *)
Lemma generate_does_not_persist_document :
  fst (main ["ci-cd.py"; "generate"] empty_world) = Returned 0%Z
  /\ ~ persisted_at workflow_file (snd (main ["ci-cd.py"; "generate"] empty_world))
  /\ tree (snd (main ["ci-cd.py"; "generate"] empty_world)) !! workflow_file = None.
Proof.
  split; [vm_compute; reflexivity|]. split.
  - intros [content H]. vm_compute in H. discriminate H.
  - vm_compute. reflexivity.
Qed.

(** Whenever creating the directory [.github/workflows] succeeds, the
    [generate] command returns 0 and has printed the summary of the default
    configuration: the platform list, the two toolchain versions and the
    intended output path; whatever stood at the workflow-file path before
    the run stands there after it. *)
Lemma generate_prints_summary_and_exits_zero :
  forall (script : string) (rest : list string) (w : world) (t' : tree_t),
    Path_mkdir workflow_dir true true (tree w) = inr t' ->
    main (script :: "generate" :: rest) w
      = (Returned 0%Z, {| stdout := stdout w ++ generate_summary; tree := t' |})
    /\ contains (String.concat ", " (platforms CIConfig_default)) generate_summary = true
    /\ contains (rust_version CIConfig_default) generate_summary = true
    /\ contains (rust_msrv CIConfig_default) generate_summary = true
    /\ contains (path_str workflow_file) generate_summary = true
    /\ t' !! workflow_file = tree w !! workflow_file.
Proof.
  intros script rest w t' Hmk. split; [now rewrite main_generate, Hmk|].
  do 4 (split; [vm_compute; reflexivity|]).
  apply Path_mkdir_inr in Hmk as [Hg _].
  destruct (Hg workflow_file) as [E | (_ & _ & Hpre)]; [exact E|].
  apply prefix_length in Hpre. vm_compute in Hpre. lia.
Qed.

(** C4. A command other than [generate] and [validate] prints
    [Unknown command: <command>] and returns 1; [validate] prints
    [Validation not yet implemented] and returns 0; with no command
    argument [main] prints the module docstring, which carries the usage
    text, and returns 1.  None of the three touches the directory tree. *)
Theorem main_dispatch :
  forall (script command : string) (rest : list string) (w : world),
    command <> "generate" ->
    command <> "validate" ->
    main (script :: command :: rest) w
      = (Returned 1%Z,
         {| stdout := stdout w ++ "Unknown command: " ++ command ++ nl;
            tree := tree w |})
    /\ main (script :: "validate" :: rest) w
      = (Returned 0%Z,
         {| stdout := stdout w ++ "Validation not yet implemented" ++ nl;
            tree := tree w |})
    /\ main [script] w
      = (Returned 1%Z, {| stdout := stdout w ++ module_doc ++ nl; tree := tree w |})
    /\ main [] w
      = (Returned 1%Z, {| stdout := stdout w ++ module_doc ++ nl; tree := tree w |})
    /\ contains "Usage:" module_doc = true
    /\ contains "python ci-cd.py generate" module_doc = true
    /\ contains "python ci-cd.py validate" module_doc = true.
Proof.
  intros script command rest w Hgen Hval.
  apply String.eqb_neq in Hgen, Hval.
  split; [|split; [|split; [|split]]]; try reflexivity.
  - unfold main. cbn [length Nat.ltb Nat.leb nth]. now rewrite Hgen, Hval.
  - repeat split; vm_compute; reflexivity.
Qed.

Lemma main_dispatch_witness :
  main ["ci-cd.py"; "frobnicate"] empty_world
    = (Returned 1%Z,
       {| stdout := stdout empty_world ++ "Unknown command: " ++ "frobnicate" ++ nl;
          tree := tree empty_world |})
  /\ main ["ci-cd.py"; "validate"] empty_world
    = (Returned 0%Z,
       {| stdout := stdout empty_world ++ "Validation not yet implemented" ++ nl;
          tree := tree empty_world |})
  /\ main ["ci-cd.py"] empty_world
    = (Returned 1%Z,
       {| stdout := stdout empty_world ++ module_doc ++ nl; tree := tree empty_world |})
  /\ main [] empty_world
    = (Returned 1%Z,
       {| stdout := stdout empty_world ++ module_doc ++ nl; tree := tree empty_world |})
  /\ contains "Usage:" module_doc = true
  /\ contains "python ci-cd.py generate" module_doc = true
  /\ contains "python ci-cd.py validate" module_doc = true.
Proof.
  apply (main_dispatch "ci-cd.py" "frobnicate" [] empty_world); discriminate.
Defined.

(** C10. The [generate] command never writes the workflow file.  Whatever
    the working directory holds, after the run every regular file is as it
    was, and the only change to the tree is new directories on the way to
    [.github/workflows].  When the directory creation succeeds the command
    has left [.github/workflows] a directory, printed the summary and
    returned 0; when it raises, nothing at all has changed.  From an empty
    working directory the run creates [.github] and [.github/workflows],
    and no file. *)
Theorem generate_never_writes_the_file :
  forall (script : string) (rest : list string) (w : world),
    (forall q content,
        tree (snd (main (script :: "generate" :: rest) w)) !! q = Some (File content)
        <-> tree w !! q = Some (File content))
    /\ grows_along workflow_dir (tree w)
         (tree (snd (main (script :: "generate" :: rest) w)))
    /\ match Path_mkdir workflow_dir true true (tree w) with
       | inr t' =>
           main (script :: "generate" :: rest) w
             = (Returned 0%Z, {| stdout := stdout w ++ generate_summary; tree := t' |})
           /\ is_dir workflow_dir t' = true
       | inl e => main (script :: "generate" :: rest) w = (Raised e, w)
       end
    /\ main [script; "generate"] empty_world
       = (Returned 0%Z,
          {| stdout := generate_summary;
             tree := <[[".github"; "workflows"] := Dir]> (<[[".github"] := Dir]> ∅) |}).
Proof.
  intros script rest w.
  assert (Hg : grows_along workflow_dir (tree w)
                 (tree (snd (main (script :: "generate" :: rest) w)))).
  { rewrite main_generate.
    destruct (Path_mkdir workflow_dir true true (tree w)) as [e | t'] eqn:Hmk.
    - apply grows_along_refl.
    - now apply Path_mkdir_inr in Hmk as [Hg _]. }
  split; [now apply grows_along_files with workflow_dir|].
  split; [exact Hg|]. split.
  - rewrite main_generate.
    destruct (Path_mkdir workflow_dir true true (tree w)) as [e | t'] eqn:Hmk;
      [reflexivity|].
    split; [reflexivity|]. now apply Path_mkdir_inr in Hmk as [_ Hd].
  - rewrite main_generate. vm_compute. reflexivity.
Qed.

(** ** Further properties of the renderer *)

Section DeleteFacts.

Lemma dict_get_remove_same k kvs : dict_get k (dict_remove k kvs) = None.
Proof.
  induction kvs as [|[k' v] kvs IH]; [reflexivity|].
  unfold dict_remove in *. simpl.
  destruct (String.eqb k k') eqn:E; simpl; [exact IH|].
  now rewrite E.
Qed.

Lemma dict_get_remove_other k k' kvs :
  k <> k' -> dict_get k' (dict_remove k kvs) = dict_get k' kvs.
Proof.
  intros Hne. induction kvs as [|[k0 v] kvs IH]; [reflexivity|].
  unfold dict_remove in *. simpl.
  destruct (String.eqb_spec k k0) as [<-|Hk]; simpl.
  - destruct (String.eqb_spec k' k) as [->|_]; [contradiction | exact IH].
  - destruct (String.eqb k' k0); [reflexivity | exact IH].
Qed.

Lemma dict_get_map_at k k' (f : value -> value) kvs :
  dict_get k' (map (fun kv => if String.eqb k (fst kv)
                              then (fst kv, f (snd kv)) else kv) kvs)
  = if String.eqb k k' then option_map f (dict_get k' kvs) else dict_get k' kvs.
Proof.
  induction kvs as [|[k0 v] kvs IH]; simpl; [now destruct (String.eqb k k')|].
  destruct (String.eqb_spec k k0) as [<-|Hk]; simpl.
  - destruct (String.eqb_spec k' k) as [->|Hk'].
    + now rewrite String.eqb_refl.
    + rewrite IH. reflexivity.
  - destruct (String.eqb_spec k' k0) as [->|Hk'].
    + apply String.eqb_neq in Hk. now rewrite Hk.
    + exact IH.
Qed.

Lemma delete_path_last k kvs :
  delete_path [k] (VDict kvs) = VDict (dict_remove k kvs).
Proof. reflexivity. Qed.

Lemma delete_path_inner k k2 ks kvs :
  delete_path (k :: k2 :: ks) (VDict kvs)
  = VDict (map (fun kv => if String.eqb k (fst kv)
                          then (fst kv, delete_path (k2 :: ks) (snd kv))
                          else kv) kvs).
Proof. reflexivity. Qed.

(** Deleting a path deletes it: nothing is found there afterwards. *)
Lemma get_path_delete_path_same ks :
  ks <> [] -> forall v, get_path ks (delete_path ks v) = None.
Proof.
  induction ks as [|k ks IH]; [contradiction|]. intros _ v.
  destruct v as [s | xs | kvs]; try reflexivity.
  destruct ks as [|k2 ks].
  - rewrite delete_path_last. cbn [get_path get]. now rewrite dict_get_remove_same.
  - rewrite delete_path_inner. cbn [get_path get].
    rewrite (dict_get_map_at k k (delete_path (k2 :: ks)) kvs), String.eqb_refl.
    destruct (dict_get k kvs) as [v'|]; [|reflexivity].
    cbn [option_map]. now apply IH.
Qed.

(** Deleting a path leaves what lies on any path that branches off it. *)
Lemma get_path_delete_path_branch common a b ks ks' :
  a <> b ->
  forall v,
    get_path (common ++ b :: ks') (delete_path (common ++ a :: ks) v)
    = get_path (common ++ b :: ks') v.
Proof.
  intros Hab. induction common as [|k common IH]; intros v.
  - destruct v as [s | xs | kvs]; try reflexivity.
    cbn [app]. destruct ks as [|k2 ks].
    + rewrite delete_path_last. cbn [get_path get]. now rewrite dict_get_remove_other.
    + rewrite delete_path_inner. cbn [get_path get].
      rewrite (dict_get_map_at a b (delete_path (k2 :: ks)) kvs).
      apply String.eqb_neq in Hab. now rewrite Hab.
  - destruct v as [s | xs | kvs]; try reflexivity.
    change ((k :: common) ++ a :: ks) with (k :: (common ++ a :: ks)).
    change ((k :: common) ++ b :: ks') with (k :: (common ++ b :: ks')).
    destruct (common ++ a :: ks) as [|k2 rest] eqn:E.
    { destruct common; discriminate E. }
    rewrite delete_path_inner. cbn [get_path get].
    rewrite (dict_get_map_at k k (delete_path (k2 :: rest)) kvs), String.eqb_refl.
    destruct (dict_get k kvs) as [v'|]; [|reflexivity].
    cbn [option_map]. apply IH.
Qed.

End DeleteFacts.

Lemma py_eq_strings_inv (ss ts : list string) :
  py_eq (VList (map VStr ss)) (VList (map VStr ts)) = true -> ss = ts.
Proof.
  revert ts. induction ss as [|s ss IH]; intros [|t ts]; simpl; try discriminate.
  - reflexivity.
  - rewrite andb_true_iff. intros [Hst Hrest].
    apply String.eqb_eq in Hst. subst t. f_equal. now apply IH.
Qed.

(** X1. The configuration can be read back from the document it renders
    to: the [os] and [rust] dimensions of the test matrix hold all three
    fields, whatever strings they are. *)
Theorem config_read_back_from_document :
  forall c : CIConfig, config_of_document (to_github_actions c) = Some c.
Proof.
  intros [rv msrv ps]. unfold config_of_document.
  change (test_matrix_dim "os" (to_github_actions (mkCIConfig rv msrv ps)))
    with (Some (map VStr ps)).
  change (test_matrix_dim "rust" (to_github_actions (mkCIConfig rv msrv ps)))
    with (Some [VStr rv; VStr msrv]).
  cbv beta iota. now rewrite strings_of_map_VStr.
Qed.

(** X2. Rendering loses nothing: two configurations whose documents are
    equal under Python's [==] are the same configuration. *)
Theorem render_injective :
  forall c1 c2 : CIConfig,
    py_eq (to_github_actions c1) (to_github_actions c2) = true -> c1 = c2.
Proof.
  intros [rv1 msrv1 ps1] [rv2 msrv2 ps2] H.
  unfold to_github_actions in H. cbn [rust_version rust_msrv platforms] in H.
  simpl in H. rewrite !andb_true_iff in H.
  destruct H as [[[[[Hos [[Hrv [Hmsrv _]] _]] _] _] _] _].
  apply String.eqb_eq in Hrv, Hmsrv. subst.
  f_equal. apply py_eq_strings_inv. exact Hos.
Qed.

Lemma render_injective_witness :
  CIConfig_default
  = mkCIConfig "stable" "1.70.0" ["ubuntu-latest"; "macos-latest"; "windows-latest"].
Proof.
  apply (render_injective CIConfig_default
           (mkCIConfig "stable" "1.70.0"
              ["ubuntu-latest"; "macos-latest"; "windows-latest"])).
  reflexivity.
Defined.

(** X3. The configuration reaches the document at one place only, the
    test job's matrix: with [jobs.test.strategy.matrix] deleted, every
    configuration renders to the same template, and the matrix itself is
    gone from it. *)
Theorem only_the_matrix_depends_on_config :
  forall c : CIConfig,
    delete_path ["jobs"; "test"; "strategy"; "matrix"] (to_github_actions c)
      = workflow_template
    /\ get_path ["jobs"; "test"; "strategy"; "matrix"] workflow_template = None
    /\ (forall c' : CIConfig,
          delete_path ["jobs"; "test"; "strategy"; "matrix"] (to_github_actions c')
          = delete_path ["jobs"; "test"; "strategy"; "matrix"] (to_github_actions c)).
Proof.
  intros [rv msrv ps]. split; [reflexivity|]. split; [reflexivity|].
  intros [rv' msrv' ps']. reflexivity.
Qed.

(** X13. For every configuration no dict of the rendered document holds
    a key twice, at any depth: no entry of the literal overwrites another,
    and the configuration's strings, which may be any strings at all, never
    become keys.  Looking a job up by name finds a job, itself without a
    repeated key, exactly when the name is [test], [lint] or [wasm]. *)
Theorem rendered_document_has_unique_keys :
  forall c : CIConfig,
    wf (to_github_actions c) = true
    /\ job_names (to_github_actions c) = Some ["test"; "lint"; "wasm"]
    /\ forall job : string,
         match job_of job (to_github_actions c) with
         | Some j => wf j = true /\ mem_string job ["test"; "lint"; "wasm"] = true
         | None => mem_string job ["test"; "lint"; "wasm"] = false
         end.
Proof.
  intros c. split; [apply to_github_actions_wf|].
  destruct c as [rv msrv ps]. split; [reflexivity|]. intros job.
  unfold job_of, to_github_actions. simpl.
  destruct (String.eqb job "test"); [simpl; now rewrite wf_map_VStr|].
  destruct (String.eqb job "lint"); [split; reflexivity|].
  destruct (String.eqb job "wasm"); [split; reflexivity | reflexivity].
Qed.



(** ** Further properties of the command surface *)

Lemma string_app_nil_r (s : string) : (s ++ "")%string = s.
Proof.
  induction s as [|ch s IH]; [reflexivity|].
  change (String ch (s ++ "") = String ch s)%string. now rewrite IH.
Qed.

(** What [generate_workflow] does, by the outcome of the directory
    creation. *)
Lemma generate_workflow_eq (p : Path) (w : world) :
  generate_workflow p w
  = match Path_mkdir (parent p) true true (tree w) with
    | inr t' => (Returned tt, {| stdout := stdout w ++ summary_for p; tree := t' |})
    | inl e => (Raised e, w)
    end.
Proof.
  unfold generate_workflow, bind, mkdir.
  destruct (Path_mkdir (parent p) true true (tree w)) as [e | t']; [reflexivity|].
  unfold print, summary_for. cbn [stdout tree]. do 2 f_equal.
  now rewrite !string_app_assoc.
Qed.

(** With [exist_ok=True], creating a directory that is there already
    succeeds and changes nothing. *)
Lemma Path_mkdir_existing (p : Path) (parents : bool) (t : tree_t) :
  is_dir p t = true -> Path_mkdir p parents true t = inr t.
Proof.
  intros Hd. unfold Path_mkdir.
  rewrite <- (rev_involutive p) in Hd. revert Hd.
  generalize (rev p) as rp. intros rp Hd.
  assert (Hos : os_mkdir (rev rp) t = inl FileExistsError).
  { unfold os_mkdir. unfold is_dir in Hd.
    destruct (node_at (rev rp) t) as [n|]; [reflexivity | discriminate]. }
  destruct rp as [|x rp]; cbn [mkdir_rev]; rewrite Hos, Hd; reflexivity.
Qed.

(** X6. Given a relative output path made of plain names (no [..]
    component), [generate_workflow] writes no file, whether it returns or
    raises: every regular file is as it was, the output path itself is
    left as it was, and the tree only gains directories on the way to the
    parent of the path.  When it returns, the parent is a directory and
    exactly the three summary lines have been printed. *)
Theorem generate_workflow_writes_no_file :
  forall (dir : Path) (name : string) (w : world),
    forallb plain_name (dir ++ [name]) = true ->
    (forall q content,
        tree (snd (generate_workflow (dir ++ [name]) w)) !! q = Some (File content)
        <-> tree w !! q = Some (File content))
    /\ tree (snd (generate_workflow (dir ++ [name]) w)) !! (dir ++ [name])
       = tree w !! (dir ++ [name])
    /\ grows_along dir (tree w) (tree (snd (generate_workflow (dir ++ [name]) w)))
    /\ match fst (generate_workflow (dir ++ [name]) w) with
       | Returned _ =>
           stdout (snd (generate_workflow (dir ++ [name]) w))
             = (stdout w ++ summary_for (dir ++ [name]))%string
           /\ is_dir dir (tree (snd (generate_workflow (dir ++ [name]) w))) = true
       | Raised _ => True
       end.
Proof.
  intros dir name w _.
  assert (Hpar : parent (dir ++ [name]) = dir) by apply removelast_last.
  assert (Hg : grows_along dir (tree w)
                 (tree (snd (generate_workflow (dir ++ [name]) w)))).
  { rewrite generate_workflow_eq, Hpar.
    destruct (Path_mkdir dir true true (tree w)) as [e | t'] eqn:Hmk.
    - apply grows_along_refl.
    - now apply Path_mkdir_inr in Hmk as [Hg _]. }
  split; [now apply grows_along_files with dir|]. split; [|split].
  - destruct (Hg (dir ++ [name])) as [E | (_ & _ & Hpre)]; [exact E|].
    apply prefix_length in Hpre. rewrite length_app in Hpre. simpl in Hpre. lia.
  - exact Hg.
  - rewrite generate_workflow_eq, Hpar.
    destruct (Path_mkdir dir true true (tree w)) as [e | t'] eqn:Hmk; [exact I|].
    cbn [fst snd stdout tree]. split; [reflexivity|].
    now apply Path_mkdir_inr in Hmk as [_ Hd].
Qed.

Lemma generate_workflow_writes_no_file_witness :
  (forall q content,
      tree (snd (generate_workflow ([".github"; "workflows"] ++ ["ci.yml"]) empty_world))
        !! q = Some (File content)
      <-> tree empty_world !! q = Some (File content))
  /\ tree (snd (generate_workflow ([".github"; "workflows"] ++ ["ci.yml"]) empty_world))
       !! ([".github"; "workflows"] ++ ["ci.yml"])
     = tree empty_world !! ([".github"; "workflows"] ++ ["ci.yml"])
  /\ grows_along [".github"; "workflows"] (tree empty_world)
       (tree (snd (generate_workflow ([".github"; "workflows"] ++ ["ci.yml"])
                     empty_world)))
  /\ match fst (generate_workflow ([".github"; "workflows"] ++ ["ci.yml"])
                  empty_world) with
     | Returned _ =>
         stdout (snd (generate_workflow ([".github"; "workflows"] ++ ["ci.yml"])
                        empty_world))
           = (stdout empty_world
              ++ summary_for ([".github"; "workflows"] ++ ["ci.yml"]))%string
         /\ is_dir [".github"; "workflows"]
              (tree (snd (generate_workflow ([".github"; "workflows"] ++ ["ci.yml"])
                            empty_world))) = true
     | Raised _ => True
     end.
Proof.
  apply (generate_workflow_writes_no_file [".github"; "workflows"] "ci.yml" empty_world).
  vm_compute. reflexivity.
Defined.

(** X7. [generate_workflow] can be run again: after a run that returned,
    a second run on the same path returns too, leaves the directory tree
    exactly as the first run left it, and prints the same summary once
    more. *)
Theorem generate_workflow_rerun :
  forall (p : Path) (w w1 : world),
    generate_workflow p w = (Returned tt, w1) ->
    stdout w1 = (stdout w ++ summary_for p)%string
    /\ generate_workflow p w1
       = (Returned tt, {| stdout := stdout w1 ++ summary_for p; tree := tree w1 |}).
Proof.
  intros p w w1. rewrite generate_workflow_eq.
  destruct (Path_mkdir (parent p) true true (tree w)) as [e | t'] eqn:Hmk;
    [discriminate|].
  intros [= <-]. split; [reflexivity|].
  rewrite generate_workflow_eq. cbn [tree stdout].
  apply Path_mkdir_inr in Hmk as [_ Hd].
  now rewrite (Path_mkdir_existing (parent p) true t' Hd).
Qed.

Lemma generate_workflow_rerun_witness :
  stdout (snd (generate_workflow workflow_file empty_world))
    = (stdout empty_world ++ summary_for workflow_file)%string
  /\ generate_workflow workflow_file (snd (generate_workflow workflow_file empty_world))
     = (Returned tt,
        {| stdout := stdout (snd (generate_workflow workflow_file empty_world))
                     ++ summary_for workflow_file;
           tree := tree (snd (generate_workflow workflow_file empty_world)) |}).
Proof.
  apply (generate_workflow_rerun workflow_file empty_world).
  vm_compute. reflexivity.
Defined.

(** X9. When a regular file stands where [.github/workflows] should be,
    or at [.github] with nothing below it, the [generate] command raises
    ([FileExistsError] in the first case, [NotADirectoryError] in the
    second), prints nothing and changes nothing. *)
Theorem generate_raises_when_a_file_is_in_the_way :
  forall (script : string) (rest : list string) (w : world) (content : string),
    tree w !! [".github"; "workflows"] = Some (File content)
    \/ (tree w !! [".github"; "workflows"] = None
        /\ tree w !! [".github"] = Some (File content)) ->
    main (script :: "generate" :: rest) w
    = (Raised (match tree w !! [".github"; "workflows"] with
               | Some _ => FileExistsError
               | None => NotADirectoryError
               end), w).
Proof.
  intros script rest w content H. rewrite main_generate.
  change workflow_dir with [".github"; "workflows"].
  unfold Path_mkdir. cbn [rev app mkdir_rev]. unfold os_mkdir, is_dir, parent.
  cbn [removelast node_at].
  destruct H as [H | [H1 H2]].
  - rewrite H. reflexivity.
  - rewrite H1, H2. reflexivity.
Qed.

Lemma generate_raises_when_a_file_is_in_the_way_witness :
  main ["ci-cd.py"; "generate"]
       {| stdout := ""; tree := <[[".github"] := File "notes"]> ∅ |}
  = (Raised (match tree {| stdout := "";
                             tree := <[[".github"] := File "notes"]> ∅ |}
                     !! [".github"; "workflows"] with
             | Some _ => FileExistsError
             | None => NotADirectoryError
             end),
     {| stdout := ""; tree := <[[".github"] := File "notes"]> ∅ |}).
Proof.
  apply (generate_raises_when_a_file_is_in_the_way "ci-cd.py" []
           {| stdout := ""; tree := <[[".github"] := File "notes"]> ∅ |} "notes").
  right. split; vm_compute; reflexivity.
Defined.

(** X11. [main] looks at [sys.argv[1]] only: the script name and any
    argument after the command make no difference to what it prints,
    changes or returns. *)
Theorem main_reads_only_the_command :
  forall (script script' command : string) (rest rest' : list string) (w : world),
    main (script :: command :: rest) w = main (script' :: command :: rest') w.
Proof. intros. reflexivity. Qed.

(** X12. [main] only ever appends to standard output, and whenever it
    returns it has printed a non-empty text. *)
Theorem main_output_is_appended :
  forall (argv : list string) (w : world),
    exists out : string,
      stdout (snd (main argv w)) = (stdout w ++ out)%string
      /\ match fst (main argv w) with
         | Returned _ => out <> ""
         | Raised _ => True
         end.
Proof.
  intros argv w. destruct argv as [|script [|command rest]].
  - exists (module_doc ++ nl)%string. split; [reflexivity | discriminate].
  - exists (module_doc ++ nl)%string. split; [reflexivity | discriminate].
  - destruct (String.eqb_spec command "generate") as [->|Hgen].
    + rewrite main_generate.
      destruct (Path_mkdir workflow_dir true true (tree w)) as [e | t'].
      * exists ""%string. cbn [fst snd]. split; [now rewrite string_app_nil_r | exact I].
      * exists generate_summary. split; [reflexivity | discriminate].
    + destruct (String.eqb_spec command "validate") as [->|Hval].
      * exists ("Validation not yet implemented" ++ nl)%string.
        split; [reflexivity | discriminate].
      * exists ("Unknown command: " ++ command ++ nl)%string.
        apply String.eqb_neq in Hgen, Hval.
        unfold main. cbn [length Nat.ltb Nat.leb nth]. rewrite Hgen, Hval.
        split; [reflexivity | discriminate].
Qed.
